(** * skyline_apiserver.api.v1.login: the four session endpoints

    A shallow embedding of [src/skyline_apiserver/api/v1/login.py]: the
    helper [_patch_profile] and the handlers [login], [get_profile],
    [logout] and [switch_project], over the external collaborators the
    module imports (identity-service client, profile builder, revocation
    store), which are taken as an environment record.

    Python's exceptions, the mutable [Response] object and the debug log
    are threaded through a small state-and-exception monad in which, as in
    Python, the effects made before a [raise] stay made. *)

From Stdlib Require Import String List ZArith.
From Stdlib Require Import DecimalString.
Import ListNotations.
Local Open Scope string_scope.
Local Open Scope Z_scope.

(** ** Data *)

(** A JSON-like [Dict[str, Any]] whose content this module never inspects. *)
Definition Dict := list (string * string).

(** [schemas.Credential]: the body of a login request. *)
Module Credential.
Record t := Build
  { region : string; domain : string; username : string; password : string }.
End Credential.

(** A project resource as [unscope_client.auth.projects()] lists it; the
    module reads [enabled] and [id]. *)
Module Project.
Record t := Build { id : string; enabled : bool }.
End Project.

Module User.
Record t := Build { id : string }.
End User.

(** [schemas.Profile]: user identity, region, project scope, keystone
    token, expiry and uuid, with the two fields [_patch_profile] assigns. *)
Module Profile.
Record t := Build
  { keystone_token : string;
    region : string;
    project : string;
    user : User.t;
    exp : Z;
    uuid : string;
    endpoints : Dict;
    projects : Dict }.

(** [profile.endpoints = v] *)
Definition set_endpoints (p : t) (v : Dict) : t :=
  Build (keystone_token p) (region p) (project p) (user p) (exp p) (uuid p)
        v (projects p).

(** [profile.projects = v] *)
Definition set_projects (p : t) (v : Dict) : t :=
  Build (keystone_token p) (region p) (project p) (user p) (exp p) (uuid p)
        (endpoints p) v.
End Profile.

(** [keystoneauth1.identity.v3.Password(...)]: the plugin only stores its
    arguments; authentication happens when the session is first used. *)
Module Password.
Record t := Build
  { auth_url : string;
    user_domain_name : string;
    username : string;
    password : string;
    reauthenticate : bool }.
End Password.

(** [keystoneauth1.session.Session(auth=..., verify=...)] *)
Module osSession.
Record t := Build { auth : Password.t; verify : bool }.
End osSession.

(** [schemas.common.OK] *)
Module OK.
Record t := Build { message : string }.
End OK.

(** ** Exceptions

    Instances of Python's [Exception], which is what every [except] clause
    of the module catches.  [Exception msg] stands for any exception whose
    [str()] is [msg]; [HTTPException] is FastAPI's. *)
Inductive exn : Type :=
| Exception (msg : string)
| HTTPException (status_code : Z) (detail : string).

Definition HTTP_200_OK : Z := 200.
Definition HTTP_401_UNAUTHORIZED : Z := 401.

Inductive result (A : Type) : Type :=
| Return (a : A)
| Raise (e : exn).
Arguments Return {A} a.
Arguments Raise {A} e.

(** The entry points of the external collaborators, as the call log
    records them. *)
Inductive external : Type :=
| GET_SYSTEM_SESSION          (* client.utils.get_system_session *)
| GET_ENDPOINT                (* client.utils.get_endpoint *)
| KEYSTONE_CLIENT             (* keystoneclient.client.Client *)
| AUTH_PROJECTS               (* unscope_client.auth.projects *)
| SESSION_GET_TOKEN           (* session.get_token *)
| GET_PROJECT_SCOPE_TOKEN     (* client.openstack.system.get_project_scope_token *)
| GENERATE_PROFILE            (* core.security.generate_profile *)
| GET_ENDPOINTS               (* client.openstack.system.get_endpoints *)
| GET_PROJECTS                (* client.openstack.system.get_projects *)
| PARSE_ACCESS_TOKEN          (* core.security.parse_access_token *)
| GENERATE_PROFILE_BY_TOKEN   (* core.security.generate_profile_by_token *)
| GENERATE_SESSION            (* client.utils.generate_session *)
| REVOKE_TOKEN                (* client.openstack.keystone.revoke_token *)
| DB_REVOKE_TOKEN.            (* db.api.revoke_token *)

(** What [response.set_cookie] and [response.delete_cookie] append to the
    response's headers. *)
Inductive header : Type :=
| SetCookie (key value : string)
| DeleteCookie (key : string).

(** The state a request runs in: the services behind the external calls,
    the log of the external calls made, the injected [Response] object and
    what [LOG.debug] wrote. *)
Record State (Ext : Type) := mkState
  { services : Ext;
    trace : list external;
    response : list header;
    log : list string }.
Arguments mkState {Ext}.
Arguments services {Ext}.
Arguments trace {Ext}.
Arguments response {Ext}.
Arguments log {Ext}.

(** An external call either returns or raises, and may change the services. *)
Definition External (Ext A : Type) : Type := Ext -> result A * Ext.

(** The collaborators and configuration imported by the module.  [Handle]
    is the type of the library objects the module only passes on (system
    session, keystone client, user session); [Token] is what
    [parse_access_token] returns.  The method [toJWTPayload] signs the
    profile: it reads nothing but the profile, and may raise.  The
    configured [session_name] is a legal cookie name, so that setting and
    deleting that cookie only appends a header. *)
Record Env (Ext Handle Token : Type) := mkEnv
  { session_name : string;                        (* CONF.default.session_name *)
    HTTPException_str : Z -> string -> string;    (* str() of an HTTPException *)
    toJWTPayload : Profile.t -> result string;    (* profile.toJWTPayload() *)
    token_keystone_token : Token -> string;       (* token.keystone_token *)
    get_system_session : External Ext Handle;
    get_endpoint : string -> string -> Handle -> External Ext string;
    KeystoneClient : osSession.t -> string -> External Ext Handle;
    auth_projects : Handle -> External Ext (list Project.t);
    session_get_token : osSession.t -> External Ext string;
    get_project_scope_token : string -> string -> string -> External Ext string;
    generate_profile : string -> string -> option string -> External Ext Profile.t;
    get_endpoints : string -> External Ext Dict;
    get_projects : string -> string -> External Ext Dict;
    parse_access_token : string -> External Ext Token;
    generate_profile_by_token : Token -> External Ext Profile.t;
    generate_session : Profile.t -> External Ext Handle;
    revoke_token : Profile.t -> Handle -> string -> External Ext unit;
    db_api_revoke_token : string -> Z -> External Ext unit }.
Arguments session_name {Ext Handle Token}.
Arguments HTTPException_str {Ext Handle Token}.
Arguments toJWTPayload {Ext Handle Token}.
Arguments token_keystone_token {Ext Handle Token}.
Arguments get_system_session {Ext Handle Token}.
Arguments get_endpoint {Ext Handle Token}.
Arguments KeystoneClient {Ext Handle Token}.
Arguments auth_projects {Ext Handle Token}.
Arguments session_get_token {Ext Handle Token}.
Arguments get_project_scope_token {Ext Handle Token}.
Arguments generate_profile {Ext Handle Token}.
Arguments get_endpoints {Ext Handle Token}.
Arguments get_projects {Ext Handle Token}.
Arguments parse_access_token {Ext Handle Token}.
Arguments generate_profile_by_token {Ext Handle Token}.
Arguments generate_session {Ext Handle Token}.
Arguments revoke_token {Ext Handle Token}.
Arguments db_api_revoke_token {Ext Handle Token}.

(** ** The monad of a handler *)

Module Handler.
Definition M (Ext A : Type) : Type := State Ext -> result A * State Ext.

Definition ret {Ext A} (a : A) : M Ext A := fun w => (Return a, w).

Definition bind {Ext A B} (m : M Ext A) (k : A -> M Ext B) : M Ext B :=
  fun w =>
    match m w with
    | (Return a, w') => k a w'
    | (Raise e, w') => (Raise e, w')
    end.

(** [raise e] *)
Definition raise {Ext A} (e : exn) : M Ext A := fun w => (Raise e, w).

(** [try: body / except Exception as e: handler e] *)
Definition try_except {Ext A} (body : M Ext A) (handler : exn -> M Ext A)
  : M Ext A :=
  fun w =>
    match body w with
    | (Return a, w') => (Return a, w')
    | (Raise e, w') => handler e w'
    end.

(** [try: body / except Exception as e: handler e / else: orelse]; the
    [else] suite runs outside the protection of the [try]. *)
Definition try_except_else {Ext A B} (body : M Ext A)
           (handler : exn -> M Ext B) (orelse : A -> M Ext B) : M Ext B :=
  fun w =>
    match body w with
    | (Return a, w') => orelse a w'
    | (Raise e, w') => handler e w'
    end.

(** A call of the collaborator [f], entered in the call log. *)
Definition call {Ext A} (name : external) (f : External Ext A) : M Ext A :=
  fun w =>
    let (r, s) := f (services w) in
    (r, mkState s (trace w ++ [name]) (response w) (log w)).

(** [response.set_cookie(key, value)] *)
Definition set_cookie {Ext} (key value : string) : M Ext unit :=
  fun w =>
    (Return tt,
     mkState (services w) (trace w) (response w ++ [SetCookie key value]) (log w)).

(** [response.delete_cookie(key)] *)
Definition delete_cookie {Ext} (key : string) : M Ext unit :=
  fun w =>
    (Return tt,
     mkState (services w) (trace w) (response w ++ [DeleteCookie key]) (log w)).

(** [LOG.debug(msg)] *)
Definition LOG_debug {Ext} (msg : string) : M Ext unit :=
  fun w =>
    (Return tt, mkState (services w) (trace w) (response w) (log w ++ [msg])).

(** The outcome of a method that reads and changes nothing of the state. *)
Definition lift {Ext A} (r : result A) : M Ext A := fun w => (r, w).

(** [l[0]] *)
Definition subscript0 {Ext A} (l : list A) : M Ext A :=
  match l with
  | [] => raise (Exception "list index out of range")
  | x :: _ => ret x
  end.
End Handler.
Import Handler.

Declare Scope handler_scope.
Delimit Scope handler_scope with handler.
Notation "x <- m ;; k" := (bind m (fun x => k))
  (at level 100, m at next level, right associativity) : handler_scope.
Notation "m ;; k" := (bind m (fun _ => k))
  (at level 100, right associativity) : handler_scope.
Local Open Scope handler_scope.

(** Python truthiness of an optional string: [None] and [""] are falsy. *)
Definition truthy (payload : option string) : bool :=
  match payload with
  | None => false
  | Some s => negb (String.eqb s "")
  end.

(** [not l] for a list. *)
Definition is_empty {A} (l : list A) : bool :=
  match l with [] => true | _ :: _ => false end.

(** ** The module *)

Section Login.
Context {Ext Handle Token : Type}.
Variable env : Env Ext Handle Token.

(** [str(e)]: the message of a plain exception; for an [HTTPException]
    whatever the installed framework renders. *)
Definition str (e : exn) : string :=
  match e with
  | Exception msg => msg
  | HTTPException status_code detail => HTTPException_str env status_code detail
  end.

(** [raise HTTPException(status_code=HTTP_401_UNAUTHORIZED, detail=str(e))] *)
Definition unauthorized {A} (e : exn) : M Ext A :=
  raise (HTTPException HTTP_401_UNAUTHORIZED (str e)).

(** The [try] suite of [_patch_profile] (lines 46-47). *)
Definition _patch_profile_try (profile : Profile.t) : M Ext Profile.t :=
  endpoints <- call GET_ENDPOINTS (get_endpoints env (Profile.region profile)) ;;
  let profile := Profile.set_endpoints profile endpoints in
  projects <- call GET_PROJECTS
                (get_projects env (Profile.region profile)
                              (User.id (Profile.user profile))) ;;
  let profile := Profile.set_projects profile projects in
  ret profile.

Definition _patch_profile (profile : Profile.t) : M Ext Profile.t :=
  try_except (_patch_profile_try profile) unauthorized.

(** The [try] suite of [login] (lines 69-100). *)
Definition login_try (credential : Credential.t) : M Ext Profile.t :=
  system_session <- call GET_SYSTEM_SESSION (get_system_session env) ;;
  auth_url <- call GET_ENDPOINT
                (get_endpoint env (Credential.region credential) "keystone"
                              system_session) ;;
  let unscope_auth :=
    Password.Build auth_url (Credential.domain credential)
                   (Credential.username credential)
                   (Credential.password credential) false in
  let session := osSession.Build unscope_auth false in
  unscope_client <- call KEYSTONE_CLIENT (KeystoneClient env session auth_url) ;;
  project_scope <- call AUTH_PROJECTS (auth_projects env unscope_client) ;;
  let project_scope := filter Project.enabled project_scope in
  (if is_empty project_scope
   then raise (Exception "You are not authorized for any projects or domains.")
   else ret tt) ;;
  keystone_token <- call SESSION_GET_TOKEN (session_get_token env session) ;;
  scope0 <- subscript0 project_scope ;;
  project_scope_token <-
    call GET_PROJECT_SCOPE_TOKEN
         (get_project_scope_token env keystone_token
                                  (Credential.region credential)
                                  (Project.id scope0)) ;;
  profile <- call GENERATE_PROFILE
               (generate_profile env project_scope_token
                                 (Credential.region credential) None) ;;
  _patch_profile profile.

(** The [else] suite shared by [login] and [switch_project] (lines 107-108
    and 189-190): the argument [profile.toJWTPayload()] is evaluated, then
    the cookie is set.  Nothing protects this suite. *)
Definition set_session_cookie (profile : Profile.t) : M Ext Profile.t :=
  payload <- lift (toJWTPayload env profile) ;;
  set_cookie (session_name env) payload ;;
  ret profile.

Definition login (credential : Credential.t) : M Ext Profile.t :=
  try_except_else (login_try credential) unauthorized set_session_cookie.

(** [profile] is what the dependency [deps.get_profile_update_jwt]
    injected. *)
Definition get_profile (profile : Profile.t) : M Ext Profile.t :=
  _patch_profile profile.

(** The [try] suite of [logout] (lines 143-147). *)
Definition logout_try (payload : string) : M Ext unit :=
  token <- call PARSE_ACCESS_TOKEN (parse_access_token env payload) ;;
  profile <- call GENERATE_PROFILE_BY_TOKEN (generate_profile_by_token env token) ;;
  session <- call GENERATE_SESSION (generate_session env profile) ;;
  call REVOKE_TOKEN
       (revoke_token env profile session (token_keystone_token env token)) ;;
  call DB_REVOKE_TOKEN
       (db_api_revoke_token env (Profile.uuid profile) (Profile.exp profile)).

(** [payload] is what the dependency [deps.getJWTPayload] injected. *)
Definition logout (payload : option string) : M Ext OK.t :=
  (if truthy payload
   then try_except
          (logout_try (match payload with Some s => s | None => "" end))
          (fun e => LOG_debug (str e))
   else ret tt) ;;
  delete_cookie (session_name env) ;;
  ret (OK.Build "Logout OK").

(** The [try] suite of [switch_project] (lines 171-182). *)
Definition switch_project_try (project_id : string) (profile : Profile.t)
  : M Ext Profile.t :=
  project_scope_token <-
    call GET_PROJECT_SCOPE_TOKEN
         (get_project_scope_token env (Profile.keystone_token profile)
                                  (Profile.region profile) project_id) ;;
  profile <- call GENERATE_PROFILE
               (generate_profile env project_scope_token
                                 (Profile.region profile)
                                 (Some (Profile.uuid profile))) ;;
  _patch_profile profile.

(** [profile] is what the dependency [deps.get_profile] injected. *)
Definition switch_project (project_id : string) (profile : Profile.t)
  : M Ext Profile.t :=
  try_except_else (switch_project_try project_id profile)
                  unauthorized set_session_cookie.

End Login.


(** ** The routes

    What FastAPI makes of a handler's outcome: a returned value is sent
    with the status code of the route's decorator, an [HTTPException] with
    its own status code and detail, and any other exception as an internal
    server error. *)
Inductive reply (A : Type) : Type :=
| Reply (status_code : Z) (body : A)
| ErrorReply (status_code : Z) (detail : string)
| InternalServerError (e : exn).
Arguments Reply {A} status_code body.
Arguments ErrorReply {A} status_code detail.
Arguments InternalServerError {A} e.

Definition route {Ext A} (status_code : Z) (handler : M Ext A)
  : State Ext -> reply A * State Ext :=
  fun w =>
    match handler w with
    | (Return a, w') => (Reply status_code a, w')
    | (Raise (HTTPException code detail), w') => (ErrorReply code detail, w')
    | (Raise e, w') => (InternalServerError e, w')
    end.

Section Routes.
Context {Ext Handle Token : Type}.
Variable env : Env Ext Handle Token.

(** [@router.post("/login", status_code=status.HTTP_200_OK)] *)
Definition POST_login (credential : Credential.t) :=
  route HTTP_200_OK (login env credential).

(** [@router.get("/profile", status_code=status.HTTP_200_OK)] *)
Definition GET_profile (profile : Profile.t) :=
  route HTTP_200_OK (get_profile env profile).

(** [@router.post("/logout", status_code=status.HTTP_200_OK)] *)
Definition POST_logout (payload : option string) :=
  route HTTP_200_OK (logout env payload).

(** [@router.post("/switch_project/{project_id}", status_code=status.HTTP_200_OK)] *)
Definition POST_switch_project (project_id : string) (profile : Profile.t) :=
  route HTTP_200_OK (switch_project env project_id profile).

End Routes.

(** ** Vocabulary of the specification *)

(** A failure of the protected suite [suite] is answered by [op] with an
    unauthorized response. *)
Definition failure_is_unauthorized {Ext A B} (suite : M Ext A)
           (op : State Ext -> reply B * State Ext) (w : State Ext) : Prop :=
  forall e w', suite w = (Raise e, w') ->
               exists detail, fst (op w) = ErrorReply HTTP_401_UNAUTHORIZED detail.

(** The fields of a profile that describe the session: all but the two
    that [_patch_profile] assigns. *)
Definition same_session_fields (p q : Profile.t) : Prop :=
  Profile.keystone_token p = Profile.keystone_token q /\
  Profile.region p = Profile.region q /\
  Profile.project p = Profile.project q /\
  Profile.user p = Profile.user q /\
  Profile.exp p = Profile.exp q /\
  Profile.uuid p = Profile.uuid q.

(** Nothing but the project scope and the token differs between [p] and [q]. *)
Definition only_scope_and_token_differ (p q : Profile.t) : Prop :=
  Profile.region p = Profile.region q /\
  Profile.user p = Profile.user q /\
  Profile.exp p = Profile.exp q /\
  Profile.uuid p = Profile.uuid q /\
  Profile.endpoints p = Profile.endpoints q /\
  Profile.projects p = Profile.projects q.

(** [profile] is [built] after [_patch_profile]: the session fields are
    those of [built], the other two are what the two lookups returned. *)
Definition patched {Ext Handle Token} (env : Env Ext Handle Token)
           (built profile : Profile.t) : Prop :=
  same_session_fields profile built /\
  exists s endpoints s1 projects s2,
    get_endpoints env (Profile.region built) s = (Return endpoints, s1) /\
    get_projects env (Profile.region built) (User.id (Profile.user built)) s1
      = (Return projects, s2) /\
    Profile.endpoints profile = endpoints /\
    Profile.projects profile = projects.

(** What the profile builder is expected to do with its arguments: the
    profile it returns holds the token it was given, ... *)
Definition builder_keeps_token {Ext Handle Token} (env : Env Ext Handle Token)
  : Prop :=
  forall token region uuid_value s profile s',
    generate_profile env token region uuid_value s = (Return profile, s') ->
    Profile.keystone_token profile = token.

(** ... the region, ... *)
Definition builder_keeps_region {Ext Handle Token} (env : Env Ext Handle Token)
  : Prop :=
  forall token region uuid_value s profile s',
    generate_profile env token region uuid_value s = (Return profile, s') ->
    Profile.region profile = region.

(** ... and the uuid, when one is given. *)
Definition builder_keeps_uuid {Ext Handle Token} (env : Env Ext Handle Token)
  : Prop :=
  forall token region uuid_value s profile s',
    generate_profile env token region (Some uuid_value) s = (Return profile, s') ->
    Profile.uuid profile = uuid_value.

(** The session [login] builds for the credential (lines 74-81). *)
Definition password_session (credential : Credential.t) (auth_url : string)
  : osSession.t :=
  osSession.Build
    (Password.Build auth_url (Credential.domain credential)
                    (Credential.username credential)
                    (Credential.password credential) false)
    false.

(** From the services [s], the identity service is found, accepts the
    credential and lists the projects [listed], leaving the services [s']. *)
Definition lists_projects {Ext Handle Token} (env : Env Ext Handle Token)
           (credential : Credential.t) (s : Ext) (session : osSession.t)
           (listed : list Project.t) (s' : Ext) : Prop :=
  exists system_session s1 auth_url s2 unscope_client s3,
    get_system_session env s = (Return system_session, s1) /\
    get_endpoint env (Credential.region credential) "keystone" system_session s1
      = (Return auth_url, s2) /\
    session = password_session credential auth_url /\
    KeystoneClient env session auth_url s2 = (Return unscope_client, s3) /\
    auth_projects env unscope_client s3 = (Return listed, s').

(** The profile was built from a token scoped to the first enabled project
    of the list the identity service returned for the credential: the
    token of the password session, exchanged by the token-scoping call. *)
Definition scoped_to_first_enabled_project {Ext Handle Token}
           (env : Env Ext Handle Token) (credential : Credential.t) (s : Ext)
           (profile : Profile.t) : Prop :=
  exists session listed s4 first unscoped s5 scoped s6 built s7,
    lists_projects env credential s session listed s4 /\
    find Project.enabled listed = Some first /\
    session_get_token env session s4 = (Return unscoped, s5) /\
    get_project_scope_token env unscoped (Credential.region credential)
                            (Project.id first) s5 = (Return scoped, s6) /\
    generate_profile env scoped (Credential.region credential) None s6
      = (Return built, s7) /\
    Profile.keystone_token profile = Profile.keystone_token built /\
    (builder_keeps_token env -> Profile.keystone_token profile = scoped).

(** The profile was built, for the region and uuid of the profile
    presented, from the presented token scoped to [project_id], and then
    patched. *)
Definition rebuilt_for_project {Ext Handle Token}
           (env : Env Ext Handle Token) (project_id : string)
           (presented : Profile.t) (s : Ext) (profile : Profile.t) : Prop :=
  exists scoped s1 built s2,
    get_project_scope_token env (Profile.keystone_token presented)
                            (Profile.region presented) project_id s
      = (Return scoped, s1) /\
    generate_profile env scoped (Profile.region presented)
                     (Some (Profile.uuid presented)) s1 = (Return built, s2) /\
    patched env built profile.

(** A computation that leaves the [Response] object as it found it. *)
Definition keeps_response {Ext A} (m : M Ext A) : Prop :=
  forall w, response (snd (m w)) = response w.

(** A computation that writes nothing to the debug log. *)
Definition keeps_log {Ext A} (m : M Ext A) : Prop :=
  forall w, log (snd (m w)) = log w.

(** A sequence of external calls, each made with what the earlier ones
    returned. *)
Inductive script (Ext : Type) : Type :=
| Done
| Call (name : external) (A : Type) (f : External Ext A) (next : A -> script Ext).
Arguments Done {Ext}.
Arguments Call {Ext} name {A} f next.

(** The calls of a script that are made from the services [s]: each is
    made once, with the services the one before left, and none is made
    after the first that raises. *)
Fixpoint calls_made {Ext} (sc : script Ext) (s : Ext) : list external :=
  match sc with
  | Done => []
  | Call name f next =>
      name :: match f s with
              | (Return a, s') => calls_made (next a) s'
              | (Raise _, _) => []
              end
  end.

(** The collaborators [login] calls, in the order of the source. *)
Definition login_calls : list external :=
  [GET_SYSTEM_SESSION; GET_ENDPOINT; KEYSTONE_CLIENT; AUTH_PROJECTS;
   SESSION_GET_TOKEN; GET_PROJECT_SCOPE_TOKEN; GENERATE_PROFILE;
   GET_ENDPOINTS; GET_PROJECTS].

(** Those of [_patch_profile], [switch_project] and [logout]. *)
Definition patch_calls : list external := [GET_ENDPOINTS; GET_PROJECTS].

Definition switch_project_calls : list external :=
  [GET_PROJECT_SCOPE_TOKEN; GENERATE_PROFILE; GET_ENDPOINTS; GET_PROJECTS].

Definition logout_calls : list external :=
  [PARSE_ACCESS_TOKEN; GENERATE_PROFILE_BY_TOKEN; GENERATE_SESSION;
   REVOKE_TOKEN; DB_REVOKE_TOKEN].

(** From the services [s], the payload parses to [token], the profile and
    the user session are rebuilt from it, leaving the services [s']. *)
Definition rebuilds_session {Ext Handle Token} (env : Env Ext Handle Token)
           (payload : string) (s : Ext) (token : Token) (profile : Profile.t)
           (session : Handle) (s' : Ext) : Prop :=
  exists s1 s2,
    parse_access_token env payload s = (Return token, s1) /\
    generate_profile_by_token env token s1 = (Return profile, s2) /\
    generate_session env profile s2 = (Return session, s').

(** From the services [s], the identity service is found and a client for
    it made, leaving the services [s']. *)
Definition reaches_keystone {Ext Handle Token} (env : Env Ext Handle Token)
           (credential : Credential.t) (s : Ext) (unscope_client : Handle)
           (s' : Ext) : Prop :=
  exists system_session s1 auth_url s2,
    get_system_session env s = (Return system_session, s1) /\
    get_endpoint env (Credential.region credential) "keystone" system_session s1
      = (Return auth_url, s2) /\
    KeystoneClient env (password_session credential auth_url) auth_url s2
      = (Return unscope_client, s').

(** The calls of [_patch_profile], with their arguments. *)
Definition patch_script {Ext Handle Token} (env : Env Ext Handle Token)
           (profile : Profile.t) : script Ext :=
  Call GET_ENDPOINTS (get_endpoints env (Profile.region profile)) (fun _ =>
  Call GET_PROJECTS
       (get_projects env (Profile.region profile) (User.id (Profile.user profile)))
       (fun _ => Done)).

(** The calls of [login]: nothing is called after the project listing
    when no listed project is enabled. *)
Definition login_script {Ext Handle Token} (env : Env Ext Handle Token)
           (credential : Credential.t) : script Ext :=
  Call GET_SYSTEM_SESSION (get_system_session env) (fun system_session =>
  Call GET_ENDPOINT
       (get_endpoint env (Credential.region credential) "keystone" system_session)
       (fun auth_url =>
  Call KEYSTONE_CLIENT
       (KeystoneClient env (password_session credential auth_url) auth_url)
       (fun unscope_client =>
  Call AUTH_PROJECTS (auth_projects env unscope_client) (fun listed =>
  match filter Project.enabled listed with
  | [] => Done
  | first :: _ =>
      Call SESSION_GET_TOKEN
           (session_get_token env (password_session credential auth_url))
           (fun unscoped =>
      Call GET_PROJECT_SCOPE_TOKEN
           (get_project_scope_token env unscoped (Credential.region credential)
                                    (Project.id first))
           (fun scoped =>
      Call GENERATE_PROFILE
           (generate_profile env scoped (Credential.region credential) None)
           (fun built => patch_script env built)))
  end)))).

(** The calls of [switch_project]. *)
Definition switch_project_script {Ext Handle Token} (env : Env Ext Handle Token)
           (project_id : string) (profile : Profile.t) : script Ext :=
  Call GET_PROJECT_SCOPE_TOKEN
       (get_project_scope_token env (Profile.keystone_token profile)
                                (Profile.region profile) project_id)
       (fun scoped =>
  Call GENERATE_PROFILE
       (generate_profile env scoped (Profile.region profile)
                         (Some (Profile.uuid profile)))
       (fun built => patch_script env built)).

(** The calls of [logout]: none for an absent or empty payload. *)
Definition logout_script {Ext Handle Token} (env : Env Ext Handle Token)
           (payload : option string) : script Ext :=
  match payload with
  | None => Done
  | Some token =>
      if String.eqb token "" then Done
      else
        Call PARSE_ACCESS_TOKEN (parse_access_token env token) (fun parsed =>
        Call GENERATE_PROFILE_BY_TOKEN (generate_profile_by_token env parsed)
             (fun profile =>
        Call GENERATE_SESSION (generate_session env profile) (fun session =>
        Call REVOKE_TOKEN
             (revoke_token env profile session (token_keystone_token env parsed))
             (fun _ =>
        Call DB_REVOKE_TOKEN
             (db_api_revoke_token env (Profile.uuid profile) (Profile.exp profile))
             (fun _ => Done)))))
  end.

(** [env] with an identity service that lists the enabled projects only. *)
Definition listing_enabled_only {Ext Handle Token} (env : Env Ext Handle Token)
  : Env Ext Handle Token :=
  {| session_name := session_name env;
     HTTPException_str := HTTPException_str env;
     toJWTPayload := toJWTPayload env;
     token_keystone_token := token_keystone_token env;
     get_system_session := get_system_session env;
     get_endpoint := get_endpoint env;
     KeystoneClient := KeystoneClient env;
     auth_projects := fun unscope_client s =>
       match auth_projects env unscope_client s with
       | (Return listed, s') => (Return (filter Project.enabled listed), s')
       | (Raise e, s') => (Raise e, s')
       end;
     session_get_token := session_get_token env;
     get_project_scope_token := get_project_scope_token env;
     generate_profile := generate_profile env;
     get_endpoints := get_endpoints env;
     get_projects := get_projects env;
     parse_access_token := parse_access_token env;
     generate_profile_by_token := generate_profile_by_token env;
     generate_session := generate_session env;
     revoke_token := revoke_token env;
     db_api_revoke_token := db_api_revoke_token env |}.

(** ** Deployments used to exercise the handlers

    The services are a revocation store: the list of revoked tokens. *)
Module Deployment.

Definition ok {A} (a : A) : External (list string) A := fun s => (Return a, s).

Definition fails {A} (msg : string) : External (list string) A :=
  fun s => (Raise (Exception msg), s).

Definition string_of_Z (z : Z) : string := NilZero.string_of_int (Z.to_int z).

(** [HTTPException.__str__] of current Starlette:
    [f"{self.status_code}: {self.detail}"]. *)
Definition starlette_str (status_code : Z) (detail : string) : string :=
  string_of_Z status_code ++ ": " ++ detail.

(** Older Starlette defines no [__str__]: an exception built from keyword
    arguments only has empty [args], and [str()] of it is empty. *)
Definition legacy_str (status_code : Z) (detail : string) : string := "".

Definition builder (token region : string) (uuid_value : option string)
  : Profile.t :=
  Profile.Build token region ("project-of:" ++ token) (User.Build "alice") 3600
                (match uuid_value with Some u => u | None => "uuid-0" end)
                [] [].

Definition revoke (token : string) : External (list string) unit :=
  fun s => (Return tt, token :: s).

(** A deployment is told which projects the identity service lists, how
    the endpoint catalogue and the token parser answer, and how the
    framework prints an [HTTPException]. *)
Definition deployment (http_str : Z -> string -> string)
           (listed : list Project.t)
           (catalogue : External (list string) Dict)
           (parser : string -> External (list string) string)
  : Env (list string) string string :=
  {| session_name := "session";
     HTTPException_str := http_str;
     toJWTPayload := fun p =>
       Return ("jwt:" ++ Profile.uuid p ++ ":" ++ Profile.keystone_token p);
     token_keystone_token := fun token => token;
     get_system_session := ok "system-session";
     get_endpoint := fun region service _ => ok ("http://" ++ service ++ "." ++ region);
     KeystoneClient := fun _ _ => ok "keystone-client";
     auth_projects := fun _ => ok listed;
     session_get_token := fun _ => ok "unscoped";
     get_project_scope_token := fun token _ project_id => ok ("scoped:" ++ project_id);
     generate_profile := fun token region uuid_value => ok (builder token region uuid_value);
     get_endpoints := fun _ => catalogue;
     get_projects := fun _ user => ok [("p1", "demo")];
     parse_access_token := parser;
     generate_profile_by_token := fun token => ok (builder token "RegionOne" None);
     generate_session := fun _ => ok "user-session";
     revoke_token := fun _ _ token => revoke token;
     db_api_revoke_token := fun uuid _ => revoke uuid |}.

Definition listed : list Project.t :=
  [Project.Build "p0" false; Project.Build "p1" true; Project.Build "p2" true].

Definition catalogue : Dict := [("keystone", "http://keystone.RegionOne")].

(** Everything answers. *)
Definition healthy := deployment starlette_str listed (ok catalogue) ok.

(** The user has no enabled project. *)
Definition no_enabled_project :=
  deployment starlette_str [Project.Build "p0" false] (ok catalogue) ok.

(** The endpoint catalogue cannot be read. *)
Definition catalogue_down :=
  deployment starlette_str listed (fails "catalogue unavailable") ok.

Definition catalogue_down_legacy :=
  deployment legacy_str listed (fails "catalogue unavailable") ok.

(** The session token does not parse. *)
Definition bad_token :=
  deployment starlette_str listed (ok catalogue)
             (fun _ => fails "Signature verification failed.").

Definition alice : Credential.t :=
  Credential.Build "RegionOne" "Default" "alice" "secret".

(** The profile a dependency injects for a live session on project [p1]. *)
Definition session_profile : Profile.t :=
  builder "scoped:p1" "RegionOne" (Some "uuid-7").

Definition start : State (list string) := mkState [] [] [] [].

(** The profile a healthy login returns for [alice]. *)
Definition alice_profile : Profile.t :=
  Profile.Build "scoped:p1" "RegionOne" "project-of:scoped:p1" (User.Build "alice")
                3600 "uuid-0" catalogue [("p1", "demo")].

(** The profile a switch to [p2] returns for the live session. *)
Definition switched_profile : Profile.t :=
  Profile.Build "scoped:p2" "RegionOne" "project-of:scoped:p2" (User.Build "alice")
                3600 "uuid-7" catalogue [("p1", "demo")].

(** The identity service raises when asked for the projects. *)
Definition listing_refused : Env (list string) string string :=
  {| session_name := session_name healthy;
     HTTPException_str := HTTPException_str healthy;
     toJWTPayload := toJWTPayload healthy;
     token_keystone_token := token_keystone_token healthy;
     get_system_session := get_system_session healthy;
     get_endpoint := get_endpoint healthy;
     KeystoneClient := KeystoneClient healthy;
     auth_projects := fun _ =>
       fails "The request you have made requires authentication.";
     session_get_token := session_get_token healthy;
     get_project_scope_token := get_project_scope_token healthy;
     generate_profile := generate_profile healthy;
     get_endpoints := get_endpoints healthy;
     get_projects := get_projects healthy;
     parse_access_token := parse_access_token healthy;
     generate_profile_by_token := generate_profile_by_token healthy;
     generate_session := generate_session healthy;
     revoke_token := revoke_token healthy;
     db_api_revoke_token := db_api_revoke_token healthy |}.

(** The identity service refuses to scope a token to any project, and to
    revoke one. *)
Definition keystone_refuses : Env (list string) string string :=
  {| session_name := session_name healthy;
     HTTPException_str := HTTPException_str healthy;
     toJWTPayload := toJWTPayload healthy;
     token_keystone_token := token_keystone_token healthy;
     get_system_session := get_system_session healthy;
     get_endpoint := get_endpoint healthy;
     KeystoneClient := KeystoneClient healthy;
     auth_projects := auth_projects healthy;
     session_get_token := session_get_token healthy;
     get_project_scope_token := fun _ _ _ =>
       fails "You are not authorized to perform the requested action.";
     generate_profile := generate_profile healthy;
     get_endpoints := get_endpoints healthy;
     get_projects := get_projects healthy;
     parse_access_token := parse_access_token healthy;
     generate_profile_by_token := generate_profile_by_token healthy;
     generate_session := generate_session healthy;
     revoke_token := fun _ _ _ => fails "Unable to establish connection.";
     db_api_revoke_token := db_api_revoke_token healthy |}.

(** The profile cannot be signed. *)
Definition signing_broken : Env (list string) string string :=
  {| session_name := session_name healthy;
     HTTPException_str := HTTPException_str healthy;
     toJWTPayload := fun _ => Raise (Exception "Unable to sign the payload.");
     token_keystone_token := token_keystone_token healthy;
     get_system_session := get_system_session healthy;
     get_endpoint := get_endpoint healthy;
     KeystoneClient := KeystoneClient healthy;
     auth_projects := auth_projects healthy;
     session_get_token := session_get_token healthy;
     get_project_scope_token := get_project_scope_token healthy;
     generate_profile := generate_profile healthy;
     get_endpoints := get_endpoints healthy;
     get_projects := get_projects healthy;
     parse_access_token := parse_access_token healthy;
     generate_profile_by_token := generate_profile_by_token healthy;
     generate_session := generate_session healthy;
     revoke_token := revoke_token healthy;
     db_api_revoke_token := db_api_revoke_token healthy |}.

End Deployment.


(** ** Proofs *)

(** Unfolds the handlers down to the external calls. *)
Ltac open_handlers :=
  unfold POST_login, GET_profile, POST_logout, POST_switch_project, route,
    login, get_profile, logout, switch_project,
    login_try, switch_project_try, logout_try, set_session_cookie, unauthorized,
    try_except, try_except_else, bind, call, ret, raise, lift,
    set_cookie, delete_cookie, LOG_debug, subscript0 in *.

(** Unfolds what surrounds the protected suite of [login] and of
    [switch_project]. *)
Ltac open_outcome :=
  unfold try_except_else, set_session_cookie, unauthorized, bind, set_cookie,
    ret, raise, lift.

(** Case analysis on the outcome of the next external call in the goal. *)
Ltac next_call :=
  match goal with
  | |- context [let (_, _) := ?f (services _) in _] =>
      destruct (f (services _)) as [[?|?] ?] eqn:?; cbn [fst snd services trace response log]
  | |- context [let (_, _) := ?f ?s in _] =>
      destruct (f s) as [[?|?] ?] eqn:?; cbn [fst snd services trace response log]
  end.

(** The same in a hypothesis [H] that fixes the handler's outcome; [x]
    names what the call returned. *)
Ltac next_call_in H x :=
  match type of H with
  | context [let (_, _) := ?f ?s in _] =>
      destruct (f s) as [[x|?] ?] eqn:?; cbn [fst snd services trace response log] in H
  end.

Section Properties.
Context {Ext Handle Token : Type}.
Variable env : Env Ext Handle Token.

(** [_patch_profile] in terms of the two lookups. *)
Lemma _patch_profile_unfold (profile : Profile.t) (w : State Ext) :
  _patch_profile env profile w =
  match get_endpoints env (Profile.region profile) (services w) with
  | (Raise e, s1) =>
      (Raise (HTTPException HTTP_401_UNAUTHORIZED (str env e)),
       mkState s1 (trace w ++ [GET_ENDPOINTS]) (response w) (log w))
  | (Return endpoints, s1) =>
      match get_projects env (Profile.region profile)
                         (User.id (Profile.user profile)) s1 with
      | (Raise e, s2) =>
          (Raise (HTTPException HTTP_401_UNAUTHORIZED (str env e)),
           mkState s2 ((trace w ++ [GET_ENDPOINTS]) ++ [GET_PROJECTS])
                   (response w) (log w))
      | (Return projects, s2) =>
          (Return (Profile.set_projects (Profile.set_endpoints profile endpoints)
                                        projects),
           mkState s2 ((trace w ++ [GET_ENDPOINTS]) ++ [GET_PROJECTS])
                   (response w) (log w))
      end
  end.
Proof.
  unfold _patch_profile, _patch_profile_try. open_handlers.
  next_call; [ | reflexivity ].
  cbn. next_call; reflexivity.
Qed.

(** *** The [Response] object is touched by the cookie calls only *)

Lemma keeps_response_ret {A} (a : A) : keeps_response (@ret Ext A a).
Proof. intro w; reflexivity. Qed.

Lemma keeps_response_raise {A} (e : exn) : keeps_response (@raise Ext A e).
Proof. intro w; reflexivity. Qed.

Lemma keeps_response_call {A} (name : external) (f : External Ext A) :
  keeps_response (call name f).
Proof. intro w; unfold call; destruct (f (services w)); reflexivity. Qed.

Lemma keeps_response_LOG_debug (msg : string) :
  keeps_response (@LOG_debug Ext msg).
Proof. intro w; reflexivity. Qed.

Lemma keeps_response_bind {A B} (m : M Ext A) (k : A -> M Ext B) :
  keeps_response m -> (forall a, keeps_response (k a)) ->
  keeps_response (bind m k).
Proof.
  intros Hm Hk w. unfold bind. specialize (Hm w).
  destruct (m w) as [[a|e] w1]; cbn in *.
  - rewrite Hk. exact Hm.
  - exact Hm.
Qed.

Lemma keeps_response_try_except {A} (body : M Ext A) (handler : exn -> M Ext A) :
  keeps_response body -> (forall e, keeps_response (handler e)) ->
  keeps_response (try_except body handler).
Proof.
  intros Hb Hh w. unfold try_except. specialize (Hb w).
  destruct (body w) as [[a|e] w1]; cbn in *.
  - exact Hb.
  - rewrite Hh. exact Hb.
Qed.

Lemma keeps_response_subscript0 {A} (l : list A) :
  keeps_response (@subscript0 Ext A l).
Proof. destruct l; intro w; reflexivity. Qed.

Create HintDb frame.
#[local] Hint Resolve keeps_response_ret keeps_response_raise keeps_response_call
  keeps_response_LOG_debug keeps_response_subscript0 : frame.
#[local] Hint Extern 2 (keeps_response (bind _ _)) =>
  apply keeps_response_bind; [ | intro ] : frame.
#[local] Hint Extern 2 (keeps_response (try_except _ _)) =>
  apply keeps_response_try_except; [ | intro ] : frame.
#[local] Hint Extern 3 (keeps_response (if ?b then _ else _)) => destruct b : frame.

Lemma keeps_response__patch_profile (profile : Profile.t) :
  keeps_response (_patch_profile env profile).
Proof. unfold _patch_profile, _patch_profile_try, unauthorized. auto 10 with frame. Qed.

#[local] Hint Resolve keeps_response__patch_profile : frame.

Lemma keeps_response_login_try (credential : Credential.t) :
  keeps_response (login_try env credential).
Proof. unfold login_try. auto 20 with frame. Qed.

Lemma keeps_response_switch_project_try (project_id : string) (profile : Profile.t) :
  keeps_response (switch_project_try env project_id profile).
Proof. unfold switch_project_try. auto 10 with frame. Qed.

Lemma keeps_response_logout_try (payload : string) :
  keeps_response (logout_try env payload).
Proof. unfold logout_try. auto 10 with frame. Qed.

(** *** Outcomes of the routes *)

(** What the login route answers, in terms of its protected suite. *)
Lemma POST_login_unfold (credential : Credential.t) (w : State Ext) :
  POST_login env credential w =
  match login_try env credential w with
  | (Return profile, w') =>
      match toJWTPayload env profile with
      | Return payload =>
          (Reply HTTP_200_OK profile,
           mkState (services w') (trace w')
                   (response w' ++ [SetCookie (session_name env) payload])
                   (log w'))
      | Raise (HTTPException code detail) => (ErrorReply code detail, w')
      | Raise e => (InternalServerError e, w')
      end
  | (Raise e, w') => (ErrorReply HTTP_401_UNAUTHORIZED (str env e), w')
  end.
Proof.
  unfold POST_login, route, login. open_outcome.
  destruct (login_try env credential w) as [[p|e] w']; [ | reflexivity ].
  destruct (toJWTPayload env p) as [payload|[msg|code detail]]; reflexivity.
Qed.

Lemma POST_switch_project_unfold (project_id : string) (profile : Profile.t)
      (w : State Ext) :
  POST_switch_project env project_id profile w =
  match switch_project_try env project_id profile w with
  | (Return profile', w') =>
      match toJWTPayload env profile' with
      | Return payload =>
          (Reply HTTP_200_OK profile',
           mkState (services w') (trace w')
                   (response w' ++ [SetCookie (session_name env) payload])
                   (log w'))
      | Raise (HTTPException code detail) => (ErrorReply code detail, w')
      | Raise e => (InternalServerError e, w')
      end
  | (Raise e, w') => (ErrorReply HTTP_401_UNAUTHORIZED (str env e), w')
  end.
Proof.
  unfold POST_switch_project, route, switch_project. open_outcome.
  destruct (switch_project_try env project_id profile w) as [[p|e] w'];
    [ | reflexivity ].
  destruct (toJWTPayload env p) as [payload|[msg|code detail]]; reflexivity.
Qed.

(** The logout route always answers 200 and deletes the cookie. *)
Lemma POST_logout_unfold (payload : option string) (w : State Ext) :
  exists w1,
    POST_logout env payload w =
    (Reply HTTP_200_OK (OK.Build "Logout OK"),
     mkState (services w1) (trace w1)
             (response w ++ [DeleteCookie (session_name env)]) (log w1)) /\
    (truthy payload = false -> w1 = w).
Proof.
  unfold POST_logout, route, logout.
  destruct (truthy payload) eqn:Ht.
  - pose proof (keeps_response_logout_try
                  (match payload with Some s => s | None => "" end) w) as Hr.
    unfold bind at 1. unfold try_except.
    destruct (logout_try env _ w) as [[[]|e] w1]; cbn in Hr.
    + exists w1. cbn. rewrite Hr. split; [reflexivity | discriminate].
    + exists (mkState (services w1) (trace w1) (response w1) (log w1 ++ [str env e])).
      cbn. rewrite Hr. split; [reflexivity | discriminate].
  - exists w. cbn. split; [reflexivity | reflexivity].
Qed.

(** C5: for login and for switch_project, the session cookie is set to
    the JWT payload of the resulting profile exactly when the operation
    succeeds: a 200 comes with the cookie set to what [toJWTPayload] made
    of the profile returned, and with any other answer (the unauthorized
    response of a failed try suite, or the failure of the unprotected else
    suite) the [Response] object is as it was. *)
Theorem session_cookie_set_iff_success
        (credential : Credential.t) (project_id : string) (profile : Profile.t)
        (w : State Ext) :
  match POST_login env credential w with
  | (Reply code body, w') =>
      code = HTTP_200_OK /\
      exists payload,
        toJWTPayload env body = Return payload /\
        response w' = (response w ++ [SetCookie (session_name env) payload])%list
  | (ErrorReply _ _, w') => response w' = response w
  | (InternalServerError _, w') => response w' = response w
  end /\
  match POST_switch_project env project_id profile w with
  | (Reply code body, w') =>
      code = HTTP_200_OK /\
      exists payload,
        toJWTPayload env body = Return payload /\
        response w' = (response w ++ [SetCookie (session_name env) payload])%list
  | (ErrorReply _ _, w') => response w' = response w
  | (InternalServerError _, w') => response w' = response w
  end.
Proof.
  split.
  - rewrite POST_login_unfold.
    pose proof (keeps_response_login_try credential w) as Hr.
    destruct (login_try env credential w) as [[p|e] w']; cbn in Hr; [ | exact Hr ].
    destruct (toJWTPayload env p) as [payload|[msg|code detail]] eqn:Hp;
      try exact Hr.
    split; [ reflexivity | ]. exists payload. cbn. rewrite Hr, Hp.
    split; reflexivity.
  - rewrite POST_switch_project_unfold.
    pose proof (keeps_response_switch_project_try project_id profile w) as Hr.
    destruct (switch_project_try env project_id profile w) as [[p|e] w'];
      cbn in Hr; [ | exact Hr ].
    destruct (toJWTPayload env p) as [payload|[msg|code detail]] eqn:Hp;
      try exact Hr.
    split; [ reflexivity | ]. exists payload. cbn. rewrite Hr, Hp.
    split; reflexivity.
Qed.

(** C6: get_profile answers with the caller's profile, its endpoints and
    projects filled in from the two lookups made for the profile's region
    and user, when both lookups return; it answers 401 with the message of
    the exception when the endpoint lookup raises, or when that returns and
    the project lookup raises; and in no other case. *)
Theorem get_profile_patches_or_unauthorized (profile : Profile.t) (w : State Ext) :
  fst (GET_profile env profile w) =
  match get_endpoints env (Profile.region profile) (services w) with
  | (Raise e, _) => ErrorReply HTTP_401_UNAUTHORIZED (str env e)
  | (Return endpoints, s1) =>
      match get_projects env (Profile.region profile)
                         (User.id (Profile.user profile)) s1 with
      | (Raise e, _) => ErrorReply HTTP_401_UNAUTHORIZED (str env e)
      | (Return projects, _) =>
          Reply HTTP_200_OK
                (Profile.Build (Profile.keystone_token profile)
                               (Profile.region profile) (Profile.project profile)
                               (Profile.user profile) (Profile.exp profile)
                               (Profile.uuid profile) endpoints projects)
      end
  end.
Proof.
  unfold GET_profile, route, get_profile. rewrite _patch_profile_unfold.
  destruct (get_endpoints env (Profile.region profile) (services w))
    as [[endpoints|e] s1]; [ | reflexivity ].
  destruct (get_projects env (Profile.region profile)
                         (User.id (Profile.user profile)) s1)
    as [[projects|e] s2]; reflexivity.
Qed.

(** C8: every logout answers 200 with the message "Logout OK" and deletes
    the session cookie, whatever the payload and whatever the collaborators
    do; when the payload is absent (or empty) no collaborator is called. *)
Theorem logout_always_ok (payload : option string) (w : State Ext) :
  fst (POST_logout env payload w) = Reply HTTP_200_OK (OK.Build "Logout OK") /\
  response (snd (POST_logout env payload w)) =
    (response w ++ [DeleteCookie (session_name env)])%list /\
  (truthy payload = false ->
   trace (snd (POST_logout env payload w)) = trace w /\
   services (snd (POST_logout env payload w)) = services w /\
   log (snd (POST_logout env payload w)) = log w).
Proof.
  destruct (POST_logout_unfold payload w) as (w1 & Heq & Habsent).
  rewrite Heq. cbn. repeat split; try (rewrite (Habsent H); reflexivity).
Qed.

(** *** What a successful run went through *)

Lemma filter_head_find {A} (f : A -> bool) (l : list A) (x : A) (rest : list A) :
  filter f l = x :: rest -> find f l = Some x.
Proof.
  induction l as [|a l IH]; cbn; [discriminate|].
  destruct (f a); [ intros [= -> _]; reflexivity | exact IH ].
Qed.

Lemma _patch_profile_Return (built profile : Profile.t) (w w' : State Ext) :
  _patch_profile env built w = (Return profile, w') -> patched env built profile.
Proof.
  rewrite _patch_profile_unfold.
  destruct (get_endpoints env (Profile.region built) (services w))
    as [[endpoints|e] s1] eqn:E1; [ | discriminate ].
  destruct (get_projects env (Profile.region built)
                         (User.id (Profile.user built)) s1)
    as [[projects|e] s2] eqn:E2; [ | discriminate ].
  intros [= <- _]. split.
  - repeat split.
  - exists (services w), endpoints, s1, projects, s2. repeat split; assumption.
Qed.

(** A login that returns has found the identity service, listed at least
    one enabled project, scoped the session's token to the first of them
    and had the profile built from the scoped token. *)
Lemma login_try_Return (credential : Credential.t) (w w' : State Ext)
      (profile : Profile.t) :
  login_try env credential w = (Return profile, w') ->
  exists session listed s4 first unscoped s5 scoped s6 built s7 w7,
    lists_projects env credential (services w) session listed s4 /\
    find Project.enabled listed = Some first /\
    session_get_token env session s4 = (Return unscoped, s5) /\
    get_project_scope_token env unscoped (Credential.region credential)
                            (Project.id first) s5 = (Return scoped, s6) /\
    generate_profile env scoped (Credential.region credential) None s6
      = (Return built, s7) /\
    _patch_profile env built w7 = (Return profile, w').
Proof.
  intro H. unfold login_try in H. open_handlers.
  next_call_in H system_session; [ | discriminate ].
  next_call_in H auth_url; [ | discriminate ].
  next_call_in H unscope_client; [ | discriminate ].
  next_call_in H listed; [ | discriminate ].
  destruct (filter Project.enabled listed) as [|first rest] eqn:Hf; cbn in H;
    [ discriminate | ].
  next_call_in H unscoped; [ | discriminate ].
  next_call_in H scoped; [ | discriminate ].
  next_call_in H built; [ | discriminate ].
  eexists _, listed, _, first, unscoped, _, scoped, _, built, _, _.
  split; [ | split; [ | split; [ | split; [ | split ] ] ] ].
  - unfold lists_projects. eexists _, _, _, _, _, _.
    repeat split; eauto.
  - eapply filter_head_find; eassumption.
  - eassumption.
  - eassumption.
  - eassumption.
  - exact H.
Qed.

Lemma switch_project_try_Return (project_id : string) (profile profile' : Profile.t)
      (w w' : State Ext) :
  switch_project_try env project_id profile w = (Return profile', w') ->
  exists scoped s1 built s2 w2,
    get_project_scope_token env (Profile.keystone_token profile)
                            (Profile.region profile) project_id (services w)
      = (Return scoped, s1) /\
    generate_profile env scoped (Profile.region profile)
                     (Some (Profile.uuid profile)) s1 = (Return built, s2) /\
    _patch_profile env built w2 = (Return profile', w').
Proof.
  intro H. unfold switch_project_try in H. open_handlers.
  next_call_in H scoped; [ | discriminate ].
  next_call_in H built; [ | discriminate ].
  eexists scoped, _, built, _, _. repeat split; eassumption.
Qed.

Lemma login_Return (credential : Credential.t) (w w' : State Ext)
      (profile : Profile.t) :
  login env credential w = (Return profile, w') ->
  exists w1, login_try env credential w = (Return profile, w1).
Proof.
  unfold login. open_outcome.
  destruct (login_try env credential w) as [[p|e] w1]; [ | discriminate ].
  destruct (toJWTPayload env p) as [payload|e]; [ | discriminate ].
  intros [= -> _]. exists w1. reflexivity.
Qed.

Lemma switch_project_Return (project_id : string) (profile profile' : Profile.t)
      (w w' : State Ext) :
  switch_project env project_id profile w = (Return profile', w') ->
  exists w1, switch_project_try env project_id profile w = (Return profile', w1).
Proof.
  unfold switch_project. open_outcome.
  destruct (switch_project_try env project_id profile w) as [[p|e] w1];
    [ | discriminate ].
  destruct (toJWTPayload env p) as [payload|e]; [ | discriminate ].
  intros [= -> _]. exists w1. reflexivity.
Qed.

(** C3: a login that succeeds returns a profile carrying the keystone
    token of the profile that the builder made from a project-scoped
    token: the token of the password session was exchanged, by the
    token-scoping call, for one scoped to the id of the first enabled
    project in the list the identity service returned.  With a builder
    that stores the token it is given, the profile carries that scoped
    token itself. *)
Theorem login_token_scoped_to_first_enabled_project
        (credential : Credential.t) (w w' : State Ext) (profile : Profile.t) :
  login env credential w = (Return profile, w') ->
  scoped_to_first_enabled_project env credential (services w) profile.
Proof.
  intro H. apply login_Return in H as (w1 & H).
  apply login_try_Return in H
    as (session & listed & s4 & first & unscoped & s5 & scoped & s6 & built
        & s7 & w7 & Hl & Hf & Ht & Hs & Hb & Hp).
  apply _patch_profile_Return in Hp as [(Htok & _) _].
  exists session, listed, s4, first, unscoped, s5, scoped, s6, built, s7.
  do 5 (split; [ eassumption | ]). split; [ exact Htok | ].
  intro Hk. rewrite Htok. eapply Hk. exact Hb.
Qed.

(** C7: when the credential authenticates but none of the listed projects
    is enabled, login answers 401 with the detail "You are not authorized
    for any projects or domains.", having called the collaborators up to
    the project listing and none after it: neither the token of the session
    is asked for, nor a token scoped, nor a profile generated. *)
Theorem login_without_enabled_project
        (credential : Credential.t) (w : State Ext) (session : osSession.t)
        (listed : list Project.t) (s4 : Ext) :
  lists_projects env credential (services w) session listed s4 ->
  filter Project.enabled listed = [] ->
  fst (POST_login env credential w)
    = ErrorReply HTTP_401_UNAUTHORIZED
                 "You are not authorized for any projects or domains." /\
  trace (snd (POST_login env credential w))
    = (trace w ++ [GET_SYSTEM_SESSION; GET_ENDPOINT; KEYSTONE_CLIENT; AUTH_PROJECTS])%list /\
  services (snd (POST_login env credential w)) = s4 /\
  response (snd (POST_login env credential w)) = response w.
Proof.
  intros (system_session & s1 & auth_url & s2 & unscope_client & s3
          & H1 & H2 & -> & H3 & H4) Hnone.
  rewrite POST_login_unfold. unfold login_try. open_handlers.
  rewrite H1. cbn. rewrite H2. cbn.
  unfold password_session in H3. rewrite H3. cbn. rewrite H4. cbn.
  rewrite Hnone. cbn. rewrite <- !app_assoc. cbn. repeat split.
Qed.

(** C4 (as amended): each operation that returns a profile returns the
    one the builder (for get_profile, the session dependency) produced with
    its keystone token, region, project scope, user, expiry and uuid
    untouched, and with its endpoints and projects replaced by what the two
    lookups returned. *)
Theorem profile_passthrough_but_endpoints_and_projects :
  (forall built w profile w',
      get_profile env built w = (Return profile, w') ->
      patched env built profile) /\
  (forall credential w profile w',
      login env credential w = (Return profile, w') ->
      exists token s built s',
        generate_profile env token (Credential.region credential) None s
          = (Return built, s') /\
        patched env built profile) /\
  (forall project_id presented w profile w',
      switch_project env project_id presented w = (Return profile, w') ->
      exists token s built s',
        generate_profile env token (Profile.region presented)
                         (Some (Profile.uuid presented)) s = (Return built, s') /\
        patched env built profile).
Proof.
  split; [ | split ].
  - intros built w profile w' H. eapply _patch_profile_Return. exact H.
  - intros credential w profile w' H. apply login_Return in H as (w1 & H).
    apply login_try_Return in H
      as (session & listed & s4 & first & unscoped & s5 & scoped & s6 & built
          & s7 & w7 & _ & _ & _ & _ & Hb & Hp).
    exists scoped, s6, built, s7. split; [ exact Hb | ].
    eapply _patch_profile_Return. exact Hp.
  - intros project_id presented w profile w' H.
    apply switch_project_Return in H as (w1 & H).
    apply switch_project_try_Return in H as (scoped & s1 & built & s2 & w2 & _ & Hb & Hp).
    exists scoped, s1, built, s2. split; [ exact Hb | ].
    eapply _patch_profile_Return. exact Hp.
Qed.

(** C9 (as amended): with a builder that returns a profile of the region
    and uuid it is given, a switch_project that succeeds returns a profile
    with the uuid and the region of the profile presented with the request.
    The profile is the one the builder made from the token scoped to the
    requested project, with endpoints and projects looked up afresh. *)
Theorem switch_project_keeps_uuid_and_region
        (project_id : string) (presented profile : Profile.t) (w w' : State Ext) :
  builder_keeps_region env ->
  builder_keeps_uuid env ->
  switch_project env project_id presented w = (Return profile, w') ->
  Profile.uuid profile = Profile.uuid presented /\
  Profile.region profile = Profile.region presented /\
  rebuilt_for_project env project_id presented (services w) profile.
Proof.
  intros Hregion Huuid H.
  apply switch_project_Return in H as (w1 & H).
  apply switch_project_try_Return in H as (scoped & s1 & built & s2 & w2 & Hs & Hb & Hp).
  apply _patch_profile_Return in Hp.
  pose proof Hp as [(_ & Hr & _ & _ & _ & Hu) _].
  split; [ | split ].
  - rewrite Hu. eapply Huuid. exact Hb.
  - rewrite Hr. eapply Hregion. exact Hb.
  - exists scoped, s1, built, s2. split; [ exact Hs | split; [ exact Hb | exact Hp ] ].
Qed.

(** *** Failures *)

(** When [_patch_profile] raises, what it raises is the unauthorized
    exception made from the exception of a lookup. *)
Lemma _patch_profile_Raise (built : Profile.t) (w w' : State Ext) (e : exn) :
  _patch_profile env built w = (Raise e, w') ->
  exists e0, _patch_profile_try env built w = (Raise e0, w') /\
             e = HTTPException HTTP_401_UNAUTHORIZED (str env e0).
Proof.
  unfold _patch_profile, try_except, unauthorized, raise.
  destruct (_patch_profile_try env built w) as [[p|e0] w1]; [ discriminate | ].
  intros [= <- <-]. exists e0. split; reflexivity.
Qed.

Lemma GET_profile_unfold (profile : Profile.t) (w : State Ext) :
  GET_profile env profile w =
  match _patch_profile_try env profile w with
  | (Return profile', w') => (Reply HTTP_200_OK profile', w')
  | (Raise e, w') => (ErrorReply HTTP_401_UNAUTHORIZED (str env e), w')
  end.
Proof.
  unfold GET_profile, route, get_profile, _patch_profile, try_except,
    unauthorized, raise.
  destruct (_patch_profile_try env profile w) as [[p|e] w']; reflexivity.
Qed.

(** C1 (as amended): for login, get_profile and switch_project, an
    exception raised inside the try suite of the operation is caught and
    answered with the unauthorized response; for logout, an exception
    raised inside its try suite is caught as well, and the answer is the
    200 "Logout OK", not an unauthorized response. *)
Theorem failures_unauthorized_except_in_logout :
  (forall credential w,
      failure_is_unauthorized (login_try env credential)
                              (POST_login env credential) w) /\
  (forall profile w,
      failure_is_unauthorized (_patch_profile_try env profile)
                              (GET_profile env profile) w) /\
  (forall project_id profile w,
      failure_is_unauthorized (switch_project_try env project_id profile)
                              (POST_switch_project env project_id profile) w) /\
  (forall payload w e w',
      logout_try env payload w = (Raise e, w') ->
      fst (POST_logout env (Some payload) w)
        = Reply HTTP_200_OK (OK.Build "Logout OK")).
Proof.
  split; [ | split; [ | split ] ].
  - intros credential w e w' H. rewrite POST_login_unfold, H.
    exists (str env e). reflexivity.
  - intros profile w e w' H. rewrite GET_profile_unfold, H.
    exists (str env e). reflexivity.
  - intros project_id profile w e w' H. rewrite POST_switch_project_unfold, H.
    exists (str env e). reflexivity.
  - intros payload w e w' _.
    destruct (POST_logout_unfold (Some payload) w) as (w1 & -> & _). reflexivity.
Qed.

(** *** The debug log is written by [logout] only *)

Lemma keeps_log_ret {A} (a : A) : keeps_log (@ret Ext A a).
Proof. intro w; reflexivity. Qed.

Lemma keeps_log_raise {A} (e : exn) : keeps_log (@raise Ext A e).
Proof. intro w; reflexivity. Qed.

Lemma keeps_log_call {A} (name : external) (f : External Ext A) :
  keeps_log (call name f).
Proof. intro w; unfold call; destruct (f (services w)); reflexivity. Qed.

Lemma keeps_log_lift {A} (r : result A) : keeps_log (@lift Ext A r).
Proof. intro w; reflexivity. Qed.

Lemma keeps_log_set_cookie (key value : string) :
  keeps_log (@set_cookie Ext key value).
Proof. intro w; reflexivity. Qed.

Lemma keeps_log_subscript0 {A} (l : list A) : keeps_log (@subscript0 Ext A l).
Proof. destruct l; intro w; reflexivity. Qed.

Lemma keeps_log_bind {A B} (m : M Ext A) (k : A -> M Ext B) :
  keeps_log m -> (forall a, keeps_log (k a)) -> keeps_log (bind m k).
Proof.
  intros Hm Hk w. unfold bind. specialize (Hm w).
  destruct (m w) as [[a|e] w1]; cbn in *; [ rewrite Hk | ]; exact Hm.
Qed.

Lemma keeps_log_try_except_else {A B} (body : M Ext A) (handler : exn -> M Ext B)
      (orelse : A -> M Ext B) :
  keeps_log body -> (forall e, keeps_log (handler e)) ->
  (forall a, keeps_log (orelse a)) ->
  keeps_log (try_except_else body handler orelse).
Proof.
  intros Hb Hh Ho w. unfold try_except_else. specialize (Hb w).
  destruct (body w) as [[a|e] w1]; cbn in *; [ rewrite Ho | rewrite Hh ]; exact Hb.
Qed.

Lemma keeps_log_try_except {A} (body : M Ext A) (handler : exn -> M Ext A) :
  keeps_log body -> (forall e, keeps_log (handler e)) ->
  keeps_log (try_except body handler).
Proof.
  intros Hb Hh w. unfold try_except. specialize (Hb w).
  destruct (body w) as [[a|e] w1]; cbn in *; [ | rewrite Hh ]; exact Hb.
Qed.

#[local] Hint Resolve keeps_log_ret keeps_log_raise keeps_log_call keeps_log_lift
  keeps_log_set_cookie keeps_log_subscript0 : frame.
#[local] Hint Extern 2 (keeps_log (bind _ _)) =>
  apply keeps_log_bind; [ | intro ] : frame.
#[local] Hint Extern 2 (keeps_log (try_except _ _)) =>
  apply keeps_log_try_except; [ | intro ] : frame.
#[local] Hint Extern 2 (keeps_log (try_except_else _ _ _)) =>
  apply keeps_log_try_except_else; [ | intro | intro ] : frame.
#[local] Hint Extern 3 (keeps_log (if ?b then _ else _)) => destruct b : frame.

Lemma keeps_log__patch_profile (profile : Profile.t) :
  keeps_log (_patch_profile env profile).
Proof. unfold _patch_profile, _patch_profile_try, unauthorized. auto 10 with frame. Qed.

#[local] Hint Resolve keeps_log__patch_profile : frame.

Lemma keeps_log_logout_try (payload : string) : keeps_log (logout_try env payload).
Proof. unfold logout_try. auto 10 with frame. Qed.

Lemma route_state {A} (status_code : Z) (handler : M Ext A) (w : State Ext) :
  snd (route status_code handler w) = snd (handler w).
Proof.
  unfold route. destruct (handler w) as [[a|[msg|code detail]] w']; reflexivity.
Qed.

(** X1: get_profile leaves the [Response] object and the debug log as it
    found them, whether it answers 200 or 401: it sets and deletes no
    cookie and logs nothing. *)
Theorem get_profile_keeps_response_and_log (profile : Profile.t) (w : State Ext) :
  response (snd (GET_profile env profile w)) = response w /\
  log (snd (GET_profile env profile w)) = log w.
Proof.
  unfold GET_profile. rewrite route_state. unfold get_profile. split.
  - apply keeps_response__patch_profile.
  - apply keeps_log__patch_profile.
Qed.

(** X2: login and switch_project write nothing to the debug log, whatever
    the collaborators do: a failure is reported in the answer only. *)
Theorem login_and_switch_project_never_log
        (credential : Credential.t) (project_id : string) (profile : Profile.t)
        (w : State Ext) :
  log (snd (POST_login env credential w)) = log w /\
  log (snd (POST_switch_project env project_id profile w)) = log w.
Proof.
  unfold POST_login, POST_switch_project. rewrite !route_state. split.
  - assert (keeps_log (login env credential)) as H; [ | apply H ].
    unfold login, login_try, unauthorized, set_session_cookie. auto 30 with frame.
  - assert (keeps_log (switch_project env project_id profile)) as H; [ | apply H ].
    unfold switch_project, switch_project_try, unauthorized, set_session_cookie.
    auto 30 with frame.
Qed.

(** X3: logout writes to the debug log exactly when its revocation suite
    runs and raises, and then one line, the message of the exception; with
    an absent or empty payload, or when the suite returns, the log is as it
    was. *)
Theorem logout_logs_failures_only (payload : option string) (w : State Ext) :
  log (snd (POST_logout env payload w)) =
  match payload with
  | None => log w
  | Some token =>
      if String.eqb token ""
      then log w
      else match fst (logout_try env token w) with
           | Return _ => log w
           | Raise e => (log w ++ [str env e])%list
           end
  end.
Proof.
  unfold POST_logout. rewrite route_state. unfold logout.
  destruct payload as [token|]; [ | reflexivity ].
  cbn [truthy]. destruct (String.eqb token ""); [ reflexivity | ].
  cbn [negb]. pose proof (keeps_log_logout_try token w) as Hl.
  unfold bind at 1. unfold try_except.
  destruct (logout_try env token w) as [[[]|e] w1]; cbn in *; rewrite Hl; reflexivity.
Qed.

(** X4: what get_profile answers does not depend on the endpoints and
    projects the injected profile already carried: both are overwritten, so
    stale values never reach the caller. *)
Theorem get_profile_ignores_carried_endpoints_and_projects
        (profile : Profile.t) (endpoints projects : Dict) (w : State Ext) :
  GET_profile env
              (Profile.set_projects (Profile.set_endpoints profile endpoints) projects)
              w
  = GET_profile env profile w.
Proof.
  unfold GET_profile, route, get_profile. rewrite !_patch_profile_unfold. cbn.
  destruct (get_endpoints env (Profile.region profile) (services w))
    as [[endpoints'|e] s1]; [ | reflexivity ].
  destruct (get_projects env (Profile.region profile)
                         (User.id (Profile.user profile)) s1)
    as [[projects'|e] s2]; reflexivity.
Qed.

(** *** The order of the external calls *)

(** Closes the case in which the call just analysed raised. *)
Ltac stopped := cbn; rewrite <- ?app_assoc; split; [ reflexivity | exact I ].

(** What the profile patching adds to the call log. *)
Lemma _patch_profile_trace (profile : Profile.t) (w : State Ext) :
  trace (snd (_patch_profile env profile w))
    = (trace w ++ calls_made (patch_script env profile) (services w))%list /\
  match fst (_patch_profile env profile w) with
  | Return _ => calls_made (patch_script env profile) (services w) = patch_calls
  | Raise _ => True
  end.
Proof.
  rewrite _patch_profile_unfold. unfold patch_script. cbn [calls_made].
  destruct (get_endpoints env (Profile.region profile) (services w))
    as [[endpoints|e] s1]; [ | stopped ].
  destruct (get_projects env (Profile.region profile)
                         (User.id (Profile.user profile)) s1)
    as [[projects|e] s2]; cbn; rewrite <- ?app_assoc; split; reflexivity || exact I.
Qed.

Lemma login_try_trace (credential : Credential.t) (w : State Ext) :
  trace (snd (login_try env credential w))
    = (trace w ++ calls_made (login_script env credential) (services w))%list /\
  match fst (login_try env credential w) with
  | Return _ => calls_made (login_script env credential) (services w) = login_calls
  | Raise _ => True
  end.
Proof.
  unfold login_try, login_script, password_session. open_handlers.
  unfold ret, raise. cbn [calls_made].
  next_call; [ | stopped ].
  next_call; [ | stopped ].
  next_call; [ | stopped ].
  next_call; [ | stopped ].
  match goal with
  | |- context [filter Project.enabled ?l] =>
      destruct (filter Project.enabled l) as [|first rest];
      cbn [is_empty calls_made fst snd services trace response log];
      [ stopped | ]
  end.
  next_call; [ | stopped ].
  next_call; [ | stopped ].
  next_call; [ | stopped ].
  match goal with
  | |- context [_patch_profile env ?p ?w1] =>
      destruct (_patch_profile_trace p w1) as (Ht & Hr);
      destruct (_patch_profile env p w1) as [[?|?] w2]; cbn in *
  end.
  - rewrite Ht, Hr. cbn. rewrite <- !app_assoc. split; reflexivity.
  - rewrite Ht. rewrite <- !app_assoc. split; [ reflexivity | exact I ].
Qed.

Lemma switch_project_try_trace (project_id : string) (profile : Profile.t)
      (w : State Ext) :
  trace (snd (switch_project_try env project_id profile w))
    = (trace w ++ calls_made (switch_project_script env project_id profile)
                             (services w))%list /\
  match fst (switch_project_try env project_id profile w) with
  | Return _ =>
      calls_made (switch_project_script env project_id profile) (services w)
        = switch_project_calls
  | Raise _ => True
  end.
Proof.
  unfold switch_project_try, switch_project_script. open_handlers.
  cbn [calls_made].
  next_call; [ | stopped ].
  next_call; [ | stopped ].
  match goal with
  | |- context [_patch_profile env ?p ?w1] =>
      destruct (_patch_profile_trace p w1) as (Ht & Hr);
      destruct (_patch_profile env p w1) as [[?|?] w2]; cbn in *
  end.
  - rewrite Ht, Hr. cbn. rewrite <- !app_assoc. split; reflexivity.
  - rewrite Ht. rewrite <- !app_assoc. split; [ reflexivity | exact I ].
Qed.

(** X5: login calls its collaborators in the order of the source, each
    once and with what the earlier ones returned, and calls none after the
    first that raises, nor after a project listing without an enabled
    project: the calls it adds to the call log are exactly those of its
    script made from the services it found, and all nine when it answers
    200. *)
Theorem login_call_order (credential : Credential.t) (w : State Ext) :
  trace (snd (POST_login env credential w))
    = (trace w ++ calls_made (login_script env credential) (services w))%list /\
  match fst (POST_login env credential w) with
  | Reply _ _ => calls_made (login_script env credential) (services w) = login_calls
  | _ => True
  end.
Proof.
  destruct (login_try_trace credential w) as (Ht & Hr).
  rewrite POST_login_unfold.
  destruct (login_try env credential w) as [[p|e] w1]; cbn in *;
    [ | split; [ exact Ht | exact I ] ].
  destruct (toJWTPayload env p) as [payload|[msg|code detail]]; cbn;
    (split; [ exact Ht | first [ exact Hr | exact I ] ]).
Qed.

(** X6: switch_project calls token scoping, the profile builder and the
    two lookups, in that order, each once and with what the earlier ones
    returned, and none after the first that raises; it calls nothing else,
    and all four when it answers 200. *)
Theorem switch_project_call_order
        (project_id : string) (profile : Profile.t) (w : State Ext) :
  trace (snd (POST_switch_project env project_id profile w))
    = (trace w ++ calls_made (switch_project_script env project_id profile)
                             (services w))%list /\
  match fst (POST_switch_project env project_id profile w) with
  | Reply _ _ =>
      calls_made (switch_project_script env project_id profile) (services w)
        = switch_project_calls
  | _ => True
  end.
Proof.
  destruct (switch_project_try_trace project_id profile w) as (Ht & Hr).
  rewrite POST_switch_project_unfold.
  destruct (switch_project_try env project_id profile w) as [[p|e] w1]; cbn in *;
    [ | split; [ exact Ht | exact I ] ].
  destruct (toJWTPayload env p) as [payload|[msg|code detail]]; cbn;
    (split; [ exact Ht | first [ exact Hr | exact I ] ]).
Qed.

(** X7: logout with an absent or empty payload calls nothing; otherwise it
    parses the token, rebuilds profile and session, revokes at the identity
    service and then in the revocation store, in that order, each once and
    with what the earlier ones returned, and calls none after the first
    that raises. *)
Theorem logout_call_order (payload : option string) (w : State Ext) :
  trace (snd (POST_logout env payload w))
    = (trace w ++ calls_made (logout_script env payload) (services w))%list.
Proof.
  unfold POST_logout. rewrite route_state. unfold logout, logout_script.
  destruct payload as [token|]; cbn [truthy];
    [ | cbn; rewrite app_nil_r; reflexivity ].
  destruct (String.eqb token ""); cbn [negb];
    [ cbn; rewrite app_nil_r; reflexivity | ].
  unfold logout_try. open_handlers. cbn [calls_made].
  do 5 (next_call; [ | cbn; rewrite <- ?app_assoc; reflexivity ]).
  cbn. rewrite <- ?app_assoc. reflexivity.
Qed.

(** X13: get_profile calls the endpoint lookup and, only when that
    returns, the project lookup, each once: when the endpoint lookup raises
    the project lookup is not attempted. *)
Theorem get_profile_call_order (profile : Profile.t) (w : State Ext) :
  trace (snd (GET_profile env profile w))
  = (trace w ++
     match get_endpoints env (Profile.region profile) (services w) with
     | (Raise _, _) => [GET_ENDPOINTS]
     | (Return _, _) => [GET_ENDPOINTS; GET_PROJECTS]
     end)%list.
Proof.
  unfold GET_profile. rewrite route_state. unfold get_profile.
  rewrite _patch_profile_unfold.
  destruct (get_endpoints env (Profile.region profile) (services w))
    as [[endpoints|e] s1]; [ | reflexivity ].
  destruct (get_projects env (Profile.region profile)
                         (User.id (Profile.user profile)) s1)
    as [[projects|e] s2]; cbn; rewrite <- app_assoc; reflexivity.
Qed.

(** *** Particular runs of the handlers *)

(** X8: when the token parses, profile and session are rebuilt and both
    revocations return, logout has revoked the keystone token of the parsed
    token at the identity service, then entered the uuid and expiry of the
    rebuilt profile in the revocation store, and has logged nothing. *)
Theorem logout_revokes_token_then_session
        (payload : string) (w : State Ext) (token : Token) (profile : Profile.t)
        (session : Handle) (s3 s4 s5 : Ext) :
  truthy (Some payload) = true ->
  rebuilds_session env payload (services w) token profile session s3 ->
  revoke_token env profile session (token_keystone_token env token) s3
    = (Return tt, s4) ->
  db_api_revoke_token env (Profile.uuid profile) (Profile.exp profile) s4
    = (Return tt, s5) ->
  POST_logout env (Some payload) w
  = (Reply HTTP_200_OK (OK.Build "Logout OK"),
     mkState s5 (trace w ++ logout_calls)
             (response w ++ [DeleteCookie (session_name env)]) (log w)).
Proof.
  intros Ht (s1 & s2 & H1 & H2 & H3) H4 H5.
  unfold POST_logout, route, logout. rewrite Ht.
  unfold logout_try. open_handlers.
  rewrite H1. cbn. rewrite H2. cbn. rewrite H3. cbn. rewrite H4. cbn.
  rewrite H5. cbn. rewrite <- !app_assoc. reflexivity.
Qed.

(** X9: when the revocation at the identity service raises, the
    revocation store is not called: the session is not entered in it.
    Logout still answers 200 and deletes the cookie, and the message of the
    exception is the one line it logs. *)
Theorem logout_keystone_failure_skips_store
        (payload : string) (w : State Ext) (token : Token) (profile : Profile.t)
        (session : Handle) (s3 s4 : Ext) (e : exn) :
  truthy (Some payload) = true ->
  rebuilds_session env payload (services w) token profile session s3 ->
  revoke_token env profile session (token_keystone_token env token) s3
    = (Raise e, s4) ->
  POST_logout env (Some payload) w
  = (Reply HTTP_200_OK (OK.Build "Logout OK"),
     mkState s4
             (trace w ++ [PARSE_ACCESS_TOKEN; GENERATE_PROFILE_BY_TOKEN;
                          GENERATE_SESSION; REVOKE_TOKEN])
             (response w ++ [DeleteCookie (session_name env)])
             (log w ++ [str env e])).
Proof.
  intros Ht (s1 & s2 & H1 & H2 & H3) H4.
  unfold POST_logout, route, logout. rewrite Ht.
  unfold logout_try. open_handlers.
  rewrite H1. cbn. rewrite H2. cbn. rewrite H3. cbn. rewrite H4. cbn.
  rewrite <- !app_assoc. reflexivity.
Qed.

(** X10: when the identity service is reached and a client for it made,
    but the project listing raises, login answers 401 with the message of
    that exception, asks for no token, scopes none, builds no profile and
    sets no cookie. *)
Theorem login_rejected_credentials
        (credential : Credential.t) (w : State Ext) (unscope_client : Handle)
        (s3 s4 : Ext) (e : exn) :
  reaches_keystone env credential (services w) unscope_client s3 ->
  auth_projects env unscope_client s3 = (Raise e, s4) ->
  POST_login env credential w
  = (ErrorReply HTTP_401_UNAUTHORIZED (str env e),
     mkState s4
             (trace w ++ [GET_SYSTEM_SESSION; GET_ENDPOINT; KEYSTONE_CLIENT;
                          AUTH_PROJECTS])
             (response w) (log w)).
Proof.
  intros (system_session & s1 & auth_url & s2 & H1 & H2 & H3) H4.
  rewrite POST_login_unfold. unfold login_try. open_handlers.
  rewrite H1. cbn. rewrite H2. cbn.
  unfold password_session in H3. rewrite H3. cbn. rewrite H4. cbn.
  rewrite <- !app_assoc. reflexivity.
Qed.

(** X11: when the token cannot be scoped to the requested project,
    switch_project answers 401 with the message of the exception; the
    profile builder and the lookups are not called and no cookie is set, so
    the session the caller holds stays as it is. *)
Theorem switch_project_scoping_failure
        (project_id : string) (profile : Profile.t) (w : State Ext)
        (s1 : Ext) (e : exn) :
  get_project_scope_token env (Profile.keystone_token profile)
                          (Profile.region profile) project_id (services w)
    = (Raise e, s1) ->
  POST_switch_project env project_id profile w
  = (ErrorReply HTTP_401_UNAUTHORIZED (str env e),
     mkState s1 (trace w ++ [GET_PROJECT_SCOPE_TOKEN]) (response w) (log w)).
Proof.
  intro H. rewrite POST_switch_project_unfold. unfold switch_project_try.
  open_handlers. rewrite H. reflexivity.
Qed.

(** X14: an exception raised by [profile.toJWTPayload()] in login is not
    caught: the else suite runs outside the try, so the handler raises that
    exception as it is, not an unauthorized one, and no cookie is set. *)
Theorem login_payload_failure_escapes
        (credential : Credential.t) (w w1 : State Ext) (profile : Profile.t)
        (e : exn) :
  login_try env credential w = (Return profile, w1) ->
  toJWTPayload env profile = Raise e ->
  login env credential w = (Raise e, w1) /\ response w1 = response w.
Proof.
  intros Htry Hpayload. split.
  - unfold login. open_outcome. rewrite Htry, Hpayload. reflexivity.
  - pose proof (keeps_response_login_try credential w) as Hr.
    rewrite Htry in Hr. exact Hr.
Qed.

(** X15: the same in switch_project: an exception raised by
    [profile.toJWTPayload()] leaves the handler as it is, and no cookie is
    set. *)
Theorem switch_project_payload_failure_escapes
        (project_id : string) (presented profile : Profile.t) (w w1 : State Ext)
        (e : exn) :
  switch_project_try env project_id presented w = (Return profile, w1) ->
  toJWTPayload env profile = Raise e ->
  switch_project env project_id presented w = (Raise e, w1) /\
  response w1 = response w.
Proof.
  intros Htry Hpayload. split.
  - unfold switch_project. open_outcome. rewrite Htry, Hpayload. reflexivity.
  - pose proof (keeps_response_switch_project_try project_id presented w) as Hr.
    rewrite Htry in Hr. exact Hr.
Qed.

End Properties.

Section DisabledProjects.
Context {Ext Handle Token : Type}.
Variable env : Env Ext Handle Token.

Lemma filter_filter {A} (f : A -> bool) (l : list A) :
  filter f (filter f l) = filter f l.
Proof.
  induction l as [|a l IH]; cbn; [ reflexivity | ].
  destruct (f a) eqn:Hfa; cbn; [ rewrite Hfa, IH; reflexivity | exact IH ].
Qed.

(** X12: the projects that are not enabled play no part in login: against
    an identity service that lists the enabled projects only, login gives
    the same answer and leaves the same state. *)
Theorem login_ignores_disabled_projects (credential : Credential.t) (w : State Ext) :
  POST_login (listing_enabled_only env) credential w = POST_login env credential w.
Proof.
  rewrite !POST_login_unfold.
  assert (login_try (listing_enabled_only env) credential w
          = login_try env credential w) as ->; [ | reflexivity ].
  unfold login_try. open_handlers. cbn.
  next_call; [ | reflexivity ].
  next_call; [ | reflexivity ].
  next_call; [ | reflexivity ].
  next_call; [ | reflexivity ].
  rewrite filter_filter. reflexivity.
Qed.

End DisabledProjects.

(** ** The handlers on the deployments *)

Module Runs.
Import Deployment.

Lemma healthy_keeps_token : builder_keeps_token healthy.
Proof. intros token region uuid_value s profile s' [= <- _]. reflexivity. Qed.

Lemma healthy_keeps_region : builder_keeps_region healthy.
Proof. intros token region uuid_value s profile s' [= <- _]. reflexivity. Qed.

Lemma healthy_keeps_uuid : builder_keeps_uuid healthy.
Proof. intros token region uuid_value s profile s' [= <- _]. reflexivity. Qed.

(** C1 fails for logout: with a session token that does not parse, the
    revocation suite raises, and the answer is 200, not an unauthorized
    response. *)
Lemma logout_failure_is_not_unauthorized :
  ~ failure_is_unauthorized (logout_try bad_token "jwt")
                            (POST_logout bad_token (Some "jwt")) start.
Proof.
  intro H.
  destruct (H (Exception "Signature verification failed.")
              (mkState [] [PARSE_ACCESS_TOKEN] [] []) eq_refl) as [detail Hd].
  vm_compute in Hd. discriminate Hd.
Qed.

(** The amended C1 on the deployments: the unauthorized answers of login
    when the project listing raises, of get_profile when the catalogue is
    down and of switch_project when the token is not scoped, and the 200 of
    logout when the token does not parse. *)
Lemma failures_unauthorized_except_in_logout_run :
  (exists detail,
      fst (POST_login listing_refused alice start) = ErrorReply 401 detail) /\
  (exists detail,
      fst (GET_profile catalogue_down session_profile start)
        = ErrorReply 401 detail) /\
  (exists detail,
      fst (POST_switch_project keystone_refuses "p9" session_profile start)
        = ErrorReply 401 detail) /\
  fst (POST_logout bad_token (Some "jwt") start) = Reply 200 (OK.Build "Logout OK").
Proof.
  split; [ | split; [ | split ] ].
  - refine (proj1 (failures_unauthorized_except_in_logout listing_refused)
                  alice start
                  (Exception "The request you have made requires authentication.")
                  (snd (login_try listing_refused alice start)) _).
    vm_compute. reflexivity.
  - refine (proj1 (proj2 (failures_unauthorized_except_in_logout catalogue_down))
                  session_profile start (Exception "catalogue unavailable")
                  (snd (_patch_profile_try catalogue_down session_profile start)) _).
    vm_compute. reflexivity.
  - refine (proj1 (proj2 (proj2 (failures_unauthorized_except_in_logout
                                   keystone_refuses)))
                  "p9" session_profile start
                  (Exception "You are not authorized to perform the requested action.")
                  (snd (switch_project_try keystone_refuses "p9" session_profile
                                           start)) _).
    vm_compute. reflexivity.
  - refine (proj2 (proj2 (proj2 (failures_unauthorized_except_in_logout bad_token)))
                  "jwt" start (Exception "Signature verification failed.")
                  (snd (logout_try bad_token "jwt" start)) _).
    vm_compute. reflexivity.
Defined.

(** C2 fails when the step that raises is the patching of the profile:
    the lookup raises "catalogue unavailable", [_patch_profile] turns it
    into an unauthorized exception with that detail, and [login] catches
    that exception in its turn and answers with its [str()] as detail,
    which is "401: catalogue unavailable" under current Starlette and the
    empty string under the older one; get_profile, on the same failure,
    answers with the message itself. *)
Theorem login_rewraps_patch_failure :
  fst (_patch_profile_try catalogue_down (builder "scoped:p1" "RegionOne" None)
                          (mkState [] [] [] []))
    = Raise (Exception "catalogue unavailable") /\
  fst (POST_login catalogue_down alice start)
    = ErrorReply 401 "401: catalogue unavailable" /\
  fst (POST_login catalogue_down_legacy alice start) = ErrorReply 401 "" /\
  fst (GET_profile catalogue_down session_profile start)
    = ErrorReply 401 "catalogue unavailable".
Proof. repeat split; vm_compute; reflexivity. Qed.

(** The run of C3: a healthy login for [alice], whose first enabled
    project is [p1]. *)
Lemma login_token_scoped_run :
  login healthy alice start
    = (Return alice_profile, snd (login healthy alice start)) /\
  scoped_to_first_enabled_project healthy alice (services start) alice_profile.
Proof.
  split.
  - vm_compute. reflexivity.
  - apply (login_token_scoped_to_first_enabled_project
             healthy alice start (snd (login healthy alice start)) alice_profile).
    vm_compute. reflexivity.
Defined.

(** C4 fails for get_profile: the profile returned has the endpoints of
    the catalogue, not those of the profile it was given. *)
Lemma get_profile_changes_endpoints :
  exists profile w',
    get_profile healthy session_profile start = (Return profile, w') /\
    Profile.endpoints profile <> Profile.endpoints session_profile.
Proof.
  eexists _, _. split.
  - vm_compute. reflexivity.
  - cbn. discriminate.
Qed.

(** The run of the amended C4, for each of the three operations. *)
Lemma profile_passthrough_run :
  patched healthy session_profile
          (Profile.Build "scoped:p1" "RegionOne" "project-of:scoped:p1"
                         (User.Build "alice") 3600 "uuid-7" catalogue
                         [("p1", "demo")]) /\
  (exists token s built s',
      generate_profile healthy token (Credential.region alice) None s
        = (Return built, s') /\
      patched healthy built alice_profile) /\
  (exists token s built s',
      generate_profile healthy token (Profile.region session_profile)
                       (Some (Profile.uuid session_profile)) s = (Return built, s') /\
      patched healthy built switched_profile).
Proof.
  destruct (profile_passthrough_but_endpoints_and_projects healthy)
    as (Hget & Hlogin & Hswitch).
  split; [ | split ].
  - apply (Hget session_profile start _
                (snd (get_profile healthy session_profile start))).
    vm_compute. reflexivity.
  - apply (Hlogin alice start alice_profile (snd (login healthy alice start))).
    vm_compute. reflexivity.
  - apply (Hswitch "p2" session_profile start switched_profile
                   (snd (switch_project healthy "p2" session_profile start))).
    vm_compute. reflexivity.
Defined.

(** The run of C7: the only project listed for [alice] is disabled. *)
Lemma login_without_enabled_project_run :
  fst (POST_login no_enabled_project alice start)
    = ErrorReply 401 "You are not authorized for any projects or domains." /\
  trace (snd (POST_login no_enabled_project alice start))
    = [GET_SYSTEM_SESSION; GET_ENDPOINT; KEYSTONE_CLIENT; AUTH_PROJECTS] /\
  services (snd (POST_login no_enabled_project alice start)) = [] /\
  response (snd (POST_login no_enabled_project alice start)) = [].
Proof.
  apply (login_without_enabled_project
           no_enabled_project alice start
           (password_session alice "http://keystone.RegionOne")
           [Project.Build "p0" false] []).
  - exists "system-session", [], "http://keystone.RegionOne", [], "keystone-client", [].
    repeat split; vm_compute; reflexivity.
  - vm_compute. reflexivity.
Defined.

(** The run of C8: a logout without payload, which calls nothing, and one
    whose token does not parse. *)
Lemma logout_always_ok_run :
  (fst (POST_logout healthy None start) = Reply 200 (OK.Build "Logout OK") /\
   response (snd (POST_logout healthy None start)) = [DeleteCookie "session"] /\
   trace (snd (POST_logout healthy None start)) = [] /\
   services (snd (POST_logout healthy None start)) = [] /\
   log (snd (POST_logout healthy None start)) = []) /\
  (fst (POST_logout bad_token (Some "jwt") start) = Reply 200 (OK.Build "Logout OK") /\
   response (snd (POST_logout bad_token (Some "jwt") start))
     = [DeleteCookie "session"]).
Proof.
  destruct (logout_always_ok healthy None start) as (Hreply & Hcookie & Hnone).
  destruct (logout_always_ok bad_token (Some "jwt") start) as (Hreply' & Hcookie' & _).
  destruct (Hnone eq_refl) as (Htrace & Hservices & Hlog).
  repeat split; assumption.
Defined.

(** C9 fails in its last part: after a switch the endpoints and projects
    of the profile differ from those presented, although the builder kept
    the user and the expiry. *)
Lemma switch_project_changes_more_than_scope :
  exists profile w',
    switch_project healthy "p2" session_profile start = (Return profile, w') /\
    Profile.uuid profile = Profile.uuid session_profile /\
    Profile.region profile = Profile.region session_profile /\
    ~ only_scope_and_token_differ session_profile profile.
Proof.
  eexists _, _. split; [ vm_compute; reflexivity | ].
  split; [ reflexivity | split; [ reflexivity | ] ].
  intros (_ & _ & _ & _ & Hendpoints & _). cbn in Hendpoints. discriminate Hendpoints.
Qed.

(** The run of the amended C9: the live session switches to [p2]. *)
Lemma switch_project_keeps_uuid_and_region_run :
  switch_project healthy "p2" session_profile start
    = (Return switched_profile,
       snd (switch_project healthy "p2" session_profile start)) /\
  Profile.uuid switched_profile = "uuid-7" /\
  Profile.region switched_profile = "RegionOne" /\
  rebuilt_for_project healthy "p2" session_profile (services start) switched_profile.
Proof.
  split.
  - vm_compute. reflexivity.
  - apply (switch_project_keeps_uuid_and_region
             healthy "p2" session_profile switched_profile start
             (snd (switch_project healthy "p2" session_profile start))
             healthy_keeps_region healthy_keeps_uuid).
    vm_compute. reflexivity.
Defined.

(** The run of X8: a healthy logout enters token and session in the store. *)
Lemma logout_revokes_token_then_session_run :
  POST_logout healthy (Some "jwt") start
  = (Reply 200 (OK.Build "Logout OK"),
     mkState ["uuid-0"; "jwt"] logout_calls [DeleteCookie "session"] []).
Proof.
  apply (logout_revokes_token_then_session
           healthy "jwt" start "jwt" (builder "jwt" "RegionOne" None)
           "user-session" [] ["jwt"] ["uuid-0"; "jwt"]).
  - reflexivity.
  - exists [], []. repeat split; reflexivity.
  - reflexivity.
  - reflexivity.
Defined.

(** The run of X9: the identity service refuses the revocation. *)
Lemma logout_keystone_failure_skips_store_run :
  POST_logout keystone_refuses (Some "jwt") start
  = (Reply 200 (OK.Build "Logout OK"),
     mkState []
             [PARSE_ACCESS_TOKEN; GENERATE_PROFILE_BY_TOKEN; GENERATE_SESSION;
              REVOKE_TOKEN]
             [DeleteCookie "session"] ["Unable to establish connection."]).
Proof.
  apply (logout_keystone_failure_skips_store
           keystone_refuses "jwt" start "jwt" (builder "jwt" "RegionOne" None)
           "user-session" [] [] (Exception "Unable to establish connection.")).
  - reflexivity.
  - exists [], []. repeat split; reflexivity.
  - reflexivity.
Defined.

(** The run of X10: the listing of the projects of [alice] raises. *)
Lemma login_rejected_credentials_run :
  POST_login listing_refused alice start
  = (ErrorReply 401 "The request you have made requires authentication.",
     mkState [] [GET_SYSTEM_SESSION; GET_ENDPOINT; KEYSTONE_CLIENT; AUTH_PROJECTS]
             [] []).
Proof.
  apply (login_rejected_credentials
           listing_refused alice start "keystone-client" [] []
           (Exception "The request you have made requires authentication.")).
  - exists "system-session", [], "http://keystone.RegionOne", [].
    repeat split; reflexivity.
  - reflexivity.
Defined.

(** The run of X11: the live session may not switch to [p9]. *)
Lemma switch_project_scoping_failure_run :
  POST_switch_project keystone_refuses "p9" session_profile start
  = (ErrorReply 401 "You are not authorized to perform the requested action.",
     mkState [] [GET_PROJECT_SCOPE_TOKEN] [] []).
Proof.
  apply (switch_project_scoping_failure
           keystone_refuses "p9" session_profile start []
           (Exception "You are not authorized to perform the requested action.")).
  reflexivity.
Defined.

(** The run of X14: the profile of [alice] cannot be signed, and the
    login route answers with an internal server error. *)
Lemma login_payload_failure_escapes_run :
  (login signing_broken alice start
   = (Raise (Exception "Unable to sign the payload."),
      snd (login_try signing_broken alice start)) /\
   response (snd (login_try signing_broken alice start)) = response start) /\
  fst (POST_login signing_broken alice start)
    = InternalServerError (Exception "Unable to sign the payload.").
Proof.
  split.
  - apply (login_payload_failure_escapes
             signing_broken alice start (snd (login_try signing_broken alice start))
             alice_profile (Exception "Unable to sign the payload.")).
    + vm_compute. reflexivity.
    + reflexivity.
  - vm_compute. reflexivity.
Defined.

(** The run of X15: the switched profile cannot be signed. *)
Lemma switch_project_payload_failure_escapes_run :
  switch_project signing_broken "p2" session_profile start
  = (Raise (Exception "Unable to sign the payload."),
     snd (switch_project_try signing_broken "p2" session_profile start)) /\
  response (snd (switch_project_try signing_broken "p2" session_profile start))
    = response start.
Proof.
  apply (switch_project_payload_failure_escapes
           signing_broken "p2" session_profile switched_profile start
           (snd (switch_project_try signing_broken "p2" session_profile start))
           (Exception "Unable to sign the payload.")).
  - vm_compute. reflexivity.
  - reflexivity.
Defined.

End Runs.
